(** * app.py: the /predict handler of the AI image detection service

    A shallow embedding of [src/app.py]: upload validation
    ([validate_image]), explanation text ([build_explanation]) and the
    request handler ([predict]).

    Modelling conventions.
    - A Python [float] is a rational ([Q]) that stands for the binary64
      value nearest to it ([PyNum.nearest]): the exact value of a double
      stands for itself, and a decimal such as 0.923 for the double that
      Python reads from it.  Products and comparisons of floats are those
      of the binary64 values, and [round] gives the decimal it rounds to.
      NaN, infinities, overflow and the sign of zero are not modelled, and
      [str] of a float is the fixed notation that Python writes below
      10^16.
    - Python [str]s are Rocq strings of ASCII characters, on which
      [str.lower] is the ASCII lowering; beyond ASCII [str.lower] follows
      the Unicode tables, which are not modelled.
    - [request.files] is a finite map from field names to uploads, an
      upload (werkzeug's FileStorage) is a record with a byte stream and a
      read position.
    - PIL decoding and the HuggingFace pipeline are parameters of the
      handler; a result of [None] stands for a raised exception. *)

From Stdlib Require Import ZArith QArith Qround Qabs Qpower Lqa String Ascii Strings.Byte List Bool Lia.
From stdpp Require Import base option list gmap strings.

Local Open Scope string_scope.
Local Open Scope Z_scope.

(** ** Numbers and their rendering *)

Module PyNum.

(** Nearest integer, ties to even: the rounding of Python's [round] and of
    the [.2f] format. *)
Definition round_half_even (q : Q) : Z :=
  let fl := Qfloor q in
  match (q - inject_Z fl ?= 1 # 2)%Q with
  | Lt => fl
  | Gt => fl + 1
  | Eq => if Z.even fl then fl else fl + 1
  end.

Definition pow2 (e : Z) : Q := (2 ^ e)%Q.

(** The integer [g] with [2^g <= a < 2^(g+1)], for a positive [a]. *)
Definition ilog2 (a : Q) : Z :=
  let g := Z.log2 (Qnum a) - Z.log2 (Zpos (Qden a)) in
  if Qle_bool (pow2 g) a then g else g - 1.

(** The exponent of the unit in which a binary64 value near [a] is
    counted: 53 bits for the significand, and no unit below [2^-1074]. *)
Definition exponent (a : Q) : Z := Z.max (ilog2 a - 52) (-1074).

(** The binary64 value nearest to a non-negative [a]: a whole number of
    units, ties to the even one. *)
Definition nearest_abs (a : Q) : Q :=
  (inject_Z (round_half_even (a / pow2 (exponent a))) * pow2 (exponent a))%Q.

(** The binary64 value nearest to [q]. *)
Definition nearest (q : Q) : Q :=
  if Qle_bool 0 q then nearest_abs (Qabs q) else (- nearest_abs (Qabs q))%Q.

(** [x * y] on floats. *)
Definition mul (x y : Q) : Q := nearest (nearest x * nearest y).

(** [x >= y] on floats. *)
Definition ge (x y : Q) : bool := Qle_bool (nearest y) (nearest x).

(** [round(x, ndigits)] for [ndigits >= 0]: the decimal of [ndigits]
    places nearest to the binary64 value, ties to even. *)
Definition round (x : Q) (ndigits : nat) : Q :=
  let p := 10 ^ Z.of_nat ndigits in
  Qmake (round_half_even (nearest x * inject_Z p)) (Z.to_pos p).

Definition digit (n : Z) : ascii := ascii_of_N (48 + Z.to_N n).

(** Decimal digits of a non-negative integer, most significant first.
    [fuel] bounds the number of digits written. *)
Fixpoint digits_go (fuel : nat) (n : Z) (acc : string) : string :=
  match fuel with
  | O => acc
  | S fuel' =>
      let acc' := String (digit (n mod 10)) acc in
      if n <? 10 then acc' else digits_go fuel' (n / 10) acc'
  end.

Definition str_int (n : Z) : string :=
  let a := Z.abs n in
  let s := digits_go (S (Z.to_nat (Z.log2 a))) a EmptyString in
  if n <? 0 then String "-" s else s.

(** A count [k] of units of [10^-nd], written in fixed notation with
    exactly [nd] digits after the point. *)
Fixpoint frac_digits (nd : nat) (r : Z) (acc : string) : string :=
  match nd with
  | O => acc
  | S nd' => frac_digits nd' (r / 10) (String (digit (r mod 10)) acc)
  end.

Definition fixed (nd : nat) (k : Z) : string :=
  let p := 10 ^ Z.of_nat nd in
  let a := Z.abs k in
  (if k <? 0 then "-" else "") ++
  str_int (a / p) ++ "." ++ frac_digits nd (a mod p) EmptyString.

(** [f"{x:.2f}"]. *)
Definition format_2f (x : Q) : string :=
  fixed 2 (round_half_even (x * inject_Z 100)).

(** [str(x)] for a float [x] that is a whole number of tenths, below
    10^16, where Python writes fixed notation: one digit after the
    point, as in [92.3] and [90.0]. *)
Definition str_tenths (x : Q) : string :=
  fixed 1 (round_half_even (x * inject_Z 10)).

End PyNum.

(** ** Strings *)

Module PyStr.

Definition lower_ascii (c : ascii) : ascii :=
  let n := N_of_ascii c in
  if ((65 <=? n) && (n <=? 90))%N then ascii_of_N (n + 32) else c.

(** [s.lower()] *)
Fixpoint lower (s : string) : string :=
  match s with
  | EmptyString => EmptyString
  | String c s' => String (lower_ascii c) (lower s')
  end.

(** [kw in s]: [kw] occurs in [s] as a contiguous substring. *)
Fixpoint py_in (kw s : string) : bool :=
  String.prefix kw s ||
  match s with
  | EmptyString => false
  | String _ s' => py_in kw s'
  end.

(** [str(x)] of an optional string: [None] prints as [None]. *)
Definition str_opt (x : option string) : string :=
  match x with
  | Some s => s
  | None => "None"
  end.

End PyStr.

(** ** The uploaded file *)

(** werkzeug's FileStorage: the declared file name and content type of a
    multipart part, its bytes and the read position of its stream.  A part
    without a Content-Type header has [content_type = None]. *)
Record FileStorage := mkFile {
  filename : string;
  content_type : option string;
  stream : list byte;
  position : nat
}.

Module Stream.

Definition set_position (f : FileStorage) (p : nat) : FileStorage :=
  mkFile (filename f) (content_type f) (stream f) p.

(** [file.seek(0, os.SEEK_END)] *)
Definition seek_end (f : FileStorage) : FileStorage :=
  set_position f (length (stream f)).

(** [file.seek(offset)] *)
Definition seek (offset : nat) (f : FileStorage) : FileStorage :=
  set_position f offset.

(** [file.tell()] *)
Definition tell (f : FileStorage) : Z := Z.of_nat (position f).

(** [file.read()]: the bytes from the read position to the end; the
    position moves to the end. *)
Definition read (f : FileStorage) : list byte * FileStorage :=
  (drop (position f) (stream f),
   set_position f (Nat.max (position f) (length (stream f)))).

End Stream.

(** ** Validation (app.py, lines 30-57) *)

Definition MAX_FILE_SIZE : Z := 5 * 1024 * 1024.

Definition ALLOWED_EXTENSIONS : gset string :=
  {[ "image/jpeg"; "image/png"; "image/webp" ]}.

(** [content_type not in ALLOWED_EXTENSIONS] *)
Definition not_allowed (ct : option string) : bool :=
  match ct with
  | Some s => negb (bool_decide (s ∈ ALLOWED_EXTENSIONS))
  | None => true
  end.

Definition invalid_type_msg (ct : option string) : string :=
  "Invalid file type '" ++ PyStr.str_opt ct ++ "'. Only JPG, PNG, WEBP allowed.".

Definition too_large_msg (size : Z) : string :=
  "File too large (" ++
  PyNum.format_2f (inject_Z size / inject_Z 1024 / inject_Z 1024) ++
  " MB). Max is 5 MB.".

(** The returned pair [(valid, message)], and the file object after the
    call. *)
Definition validate_image (file : FileStorage) : (bool * string) * FileStorage :=
  let ct := content_type file in
  if not_allowed ct then ((false, invalid_type_msg ct), file)
  else
    let file := Stream.seek_end file in
    let size := Stream.tell file in
    let file := Stream.seek 0 file in
    if MAX_FILE_SIZE <? size then ((false, too_large_msg size), file)
    else ((true, ""), file).

(** The outcome named by a returned pair: the two rejections are told
    apart by the message. *)
Inductive Verdict := Accepted | InvalidType | TooLarge | OtherRejection.

Definition verdict (r : bool * string) : Verdict :=
  if fst r then Accepted
  else if String.prefix "Invalid file type" (snd r) then InvalidType
  else if String.prefix "File too large" (snd r) then TooLarge
  else OtherRejection.

(** ** Explanation text (app.py, lines 60-75) *)

Definition build_explanation (label : string) (confidence : Q) : string :=
  let pct := PyNum.str_tenths (PyNum.round (PyNum.mul confidence 100) 1) in
  if String.eqb label "AI Generated" then
    if PyNum.ge confidence 0.90 then
      "The model is highly confident (" ++ pct ++ "%) this image was created by an AI system. Telltale signs include hyper-smooth textures, unnatural lighting gradients, and structural inconsistencies typical of generative models."
    else if PyNum.ge confidence 0.70 then
      "The model suspects (" ++ pct ++ "%) this image is AI-generated. Several subtle artifacts such as irregular edges or blended features are characteristic of diffusion or GAN-based synthesis."
    else
      "The model leans toward AI-generated (" ++ pct ++ "%), but with moderate uncertainty. The image has some synthetic-looking qualities, though it shares traits with real photography too."
  else
    if PyNum.ge confidence 0.90 then
      "The model is highly confident (" ++ pct ++ "%) this is a real photograph. Natural noise patterns, authentic lighting, and organic imperfections are consistent with a camera-captured image."
    else if PyNum.ge confidence 0.70 then
      "The model believes (" ++ pct ++ "%) this is a real image. It exhibits mostly authentic photographic characteristics, with only minor ambiguities."
    else
      "The model leans toward real (" ++ pct ++ "%), but is not highly certain. This image sits near the boundary between AI-generated and real photography.".

(** ** The classifier's output and the handler's effects *)

(** One entry of the pipeline's output, a dict with the keys [label] and
    [score]; a field is [None] when the key is absent. *)
Record RawResult := mkRaw {
  label : option string;
  score : option Q
}.

Inductive exn :=
| ValueError (msg : string)
| KeyError (key : string).

Inductive LogRecord :=
| InfoRawOutput (results : list RawResult)
| ErrorInference
| InfoPrediction (msg : string).

(** Handler code: it appends to the log and either returns or raises. *)
Definition M (A : Type) : Type := list LogRecord -> (exn + A) * list LogRecord.

#[export] Instance M_ret : MRet M := fun A a lg => (inr a, lg).

#[export] Instance M_bind : MBind M := fun A B k m lg =>
  match m lg with
  | (inr a, lg') => k a lg'
  | (inl e, lg') => (inl e, lg')
  end.

Definition raise {A} (e : exn) : M A := fun lg => (inl e, lg).

Definition logger (r : LogRecord) : M unit := fun lg => (inr tt, (lg ++ [r])%list).

(** [d[key]] on an entry. *)
Definition getitem {A} (field : option A) (key : string) : M A :=
  match field with
  | Some v => mret v
  | None => raise (KeyError key)
  end.

(** [max(results, key=lambda x: x["score"])]: the key of every entry is
    taken in order, and an entry replaces the current maximum only when
    its key is strictly greater, so the first of several maxima wins. *)
Fixpoint max_go (best : RawResult) (kbest : Q) (rest : list RawResult) : M RawResult :=
  match rest with
  | [] => mret best
  | x :: rest' =>
      k ← getitem (score x) "score";
      if Qle_bool k kbest then max_go best kbest rest' else max_go x k rest'
  end.

Definition max_by_score (results : list RawResult) : M RawResult :=
  match results with
  | [] => raise (ValueError "max() arg is an empty sequence")
  | x :: rest =>
      k ← getitem (score x) "score";
      max_go x k rest
  end.

(** ** Label normalization (app.py, lines 112-118) *)

Definition KEYWORDS : list string :=
  ["artificial"; "fake"; "ai"; "generated"; "synthetic"].

(** The prediction for a lowercased raw label. *)
Definition prediction_of (raw_label : string) : string :=
  if existsb (fun kw => PyStr.py_in kw raw_label) KEYWORDS
  then "AI Generated" else "Real".

(** The prediction for a label as the model emits it. *)
Definition normalize (raw : string) : string := prediction_of (PyStr.lower raw).

(** ** The /predict handler (app.py, lines 87-127) *)

Inductive Body :=
| JsonError (error : string)
| JsonPrediction (prediction : string) (confidence : Q) (explanation : string).

Record Request := mkRequest {
  files : gmap string FileStorage;
  form : gmap string string
}.

(** The loaded pipeline, on decoded images of type [Image]. *)
Definition Classifier (Image : Type) : Type := Image -> option (list RawResult).

Section Handler.

(** A decoded RGB image, and [Image.open(io.BytesIO(b)).convert("RGB")]. *)
Context {Image : Type} (image_open : list byte -> option Image).

(** Lines 111-127, after a successful inference. *)
Definition respond (results : list RawResult) : M (Body * Z) :=
  top ← max_by_score results;
  l ← getitem (label top) "label";
  let raw_label := PyStr.lower l in
  s ← getitem (score top) "score";
  let confidence := PyNum.round s 4 in
  let prediction := prediction_of raw_label in
  let explanation := build_explanation prediction confidence in
  let response :=
    JsonPrediction prediction (PyNum.round (PyNum.mul confidence 100) 2) explanation in
  logger (InfoPrediction ("Prediction: " ++ prediction ++ " | Confidence: " ++
                          PyNum.format_2f (PyNum.mul confidence 100) ++ "%"));;
  mret (response, 200).

Definition predict (classifier : option (Classifier Image)) (request : Request) : M (Body * Z) :=
  match classifier with
  | None => mret (JsonError "Model not loaded. Please check server logs.", 503)
  | Some model =>
  match files request !! "image" with
  | None => mret (JsonError "No image file provided.", 400)
  | Some file =>
  if String.eqb (filename file) "" then mret (JsonError "Empty filename.", 400)
  else
  let '((valid, msg), file) := validate_image file in
  if negb valid then mret (JsonError msg, 422)
  else
  let '(image_bytes, file) := Stream.read file in
  match image_open image_bytes with
  | None => mret (JsonError "Could not read image. File may be corrupted.", 422)
  | Some image =>
  match model image with
  | None =>
      logger ErrorInference;;
      mret (JsonError "Model inference failed.", 500)
  | Some results =>
      logger (InfoRawOutput results);;
      respond results
  end end end end.

End Handler.

(** ** The specification's vocabulary *)

(** The declared content type is one of the three allowed ones. *)
Definition DeclaredAllowed (ct : option string) : Prop :=
  ct = Some "image/jpeg" \/ ct = Some "image/png" \/ ct = Some "image/webp".

(** The size of an upload in bytes. *)
Definition size_in_bytes (f : FileStorage) : Z := Z.of_nat (length (stream f)).

(** [kw] occurs in [s]. *)
Definition Contains (kw s : string) : Prop :=
  exists pre post, s = pre ++ kw ++ post.

(** The confidence bands of the explanation table. *)
Inductive Band := High | Medium | Low.

Definition InBand (c : Q) (b : Band) : Prop :=
  match b with
  | High => (0.90 <= c)%Q
  | Medium => (0.70 <= c)%Q /\ (c < 0.90)%Q
  | Low => (c < 0.70)%Q
  end.

(** The six templates: the text before and after the percentage. *)
Definition template (ai : bool) (b : Band) : string * string :=
  match ai, b with
  | true, High =>
      ("The model is highly confident (",
       "%) this image was created by an AI system. Telltale signs include hyper-smooth textures, unnatural lighting gradients, and structural inconsistencies typical of generative models.")
  | true, Medium =>
      ("The model suspects (",
       "%) this image is AI-generated. Several subtle artifacts such as irregular edges or blended features are characteristic of diffusion or GAN-based synthesis.")
  | true, Low =>
      ("The model leans toward AI-generated (",
       "%), but with moderate uncertainty. The image has some synthetic-looking qualities, though it shares traits with real photography too.")
  | false, High =>
      ("The model is highly confident (",
       "%) this is a real photograph. Natural noise patterns, authentic lighting, and organic imperfections are consistent with a camera-captured image.")
  | false, Medium =>
      ("The model believes (",
       "%) this is a real image. It exhibits mostly authentic photographic characteristics, with only minor ambiguities.")
  | false, Low =>
      ("The model leans toward real (",
       "%), but is not highly certain. This image sits near the boundary between AI-generated and real photography.")
  end.


Definition fill (t : string * string) (pct : string) : string :=
  fst t ++ pct ++ snd t.

(** The band table on floats: the thresholds and the confidence are
    compared as binary64 values. *)
Definition FloatBand (c : Q) (b : Band) : Prop :=
  match b with
  | High => (PyNum.nearest 0.90 <= PyNum.nearest c)%Q
  | Medium => (PyNum.nearest 0.70 <= PyNum.nearest c)%Q /\
              (PyNum.nearest c < PyNum.nearest 0.90)%Q
  | Low => (PyNum.nearest c < PyNum.nearest 0.70)%Q
  end.

(** A string of ASCII characters. *)
Fixpoint is_ascii (s : string) : Prop :=
  match s with
  | EmptyString => True
  | String c s' => (N_of_ascii c < 128)%N /\ is_ascii s'
  end.

(** The character [c] is [d] or the capital letter of [d]. *)
Definition folds_to (c d : ascii) : Prop :=
  c = d \/
  ((65 <= N_of_ascii c)%N /\ (N_of_ascii c <= 90)%N /\
   N_of_ascii d = (N_of_ascii c + 32)%N).

(** The word [w] is [kw] up to capital letters. *)
Fixpoint matches_ignoring_case (w kw : string) : Prop :=
  match w, kw with
  | EmptyString, EmptyString => True
  | String c w', String d kw' => folds_to c d /\ matches_ignoring_case w' kw'
  | _, _ => False
  end.

(** [kw] occurs in [raw], in any mix of capital and small letters. *)
Definition ContainsIgnoringCase (kw raw : string) : Prop :=
  exists pre w post, raw = pre ++ w ++ post /\ matches_ignoring_case w kw.



Section Table.

Context {Image : Type} (image_open : list byte -> option Image).

(** The request passes every gate and the classifier returns [results]. *)
Definition Classified (cls : option (Classifier Image)) (req : Request)
    (results : list RawResult) : Prop :=
  exists model f image,
    cls = Some model /\
    files req !! "image" = Some f /\
    filename f <> "" /\
    fst (validate_image f) = (true, "") /\
    image_open (stream f) = Some image /\
    model image = Some results.

End Table.

(** ** Concrete inputs *)

Module Sample.

(** A decoder that accepts the streams that start with the eight bytes
    of the PNG signature, and keeps the bytes as the image. *)
Definition image_open (b : list byte) : option (list byte) :=
  match b with
  | x89 :: x50 :: x4e :: x47 :: x0d :: x0a :: x1a :: x0a :: _ => Some b
  | _ => None
  end.

(** A PNG file of one red pixel: signature, IHDR, IDAT and IEND chunks. *)
Definition png_bytes : list byte :=
  [x89; x50; x4e; x47; x0d; x0a; x1a; x0a;
   x00; x00; x00; x0d; x49; x48; x44; x52;
   x00; x00; x00; x01; x00; x00; x00; x01; x08; x02; x00; x00; x00;
   x90; x77; x53; xde;
   x00; x00; x00; x0c; x49; x44; x41; x54;
   x78; xda; x63; xf8; xcf; xc0; x00; x00; x03; x01; x01; x00;
   xf7; x03; x41; x43;
   x00; x00; x00; x00; x49; x45; x4e; x44; xae; x42; x60; x82].

Definition small_png : FileStorage :=
  mkFile "cat.png" (Some "image/png") png_bytes 0.

Definition request : Request := mkRequest {[ "image" := small_png ]} ∅.

(** The same upload in a request with another form field and another
    file. *)
Definition request' : Request :=
  mkRequest {[ "image" := small_png;
               "thumb" := mkFile "t.gif" (Some "image/gif") [] 0 ]}
            {[ "note" := "again" ]}.

Definition two_labels : Classifier (list byte) := fun _ =>
  Some [mkRaw (Some "human") (Some 0.077%Q);
        mkRaw (Some "artificial") (Some 0.923%Q)].

Definition no_labels : Classifier (list byte) := fun _ => Some [].

Definition no_score : Classifier (list byte) := fun _ =>
  Some [mkRaw (Some "artificial") None].

(** Uploads of 5 MiB + 1 byte and of exactly 5 MiB. *)
Definition zeros (n : N) : list byte := replicate (N.to_nat n) x00.

Definition big_gif : FileStorage :=
  mkFile "big.gif" (Some "image/gif") (zeros 5242881) 0.

Definition big_jpeg : FileStorage :=
  mkFile "big.jpg" (Some "image/jpeg") (zeros 5242881) 0.

Definition limit_jpeg : FileStorage :=
  mkFile "limit.jpg" (Some "image/jpeg") (zeros 5242880) 0.

End Sample.

(** ** More vocabulary *)





(** ** Module start (app.py, lines 32-45) and /health (lines 130-138) *)

(** [os.getenv(key, default)] on the process environment. *)
Definition getenv (environ : gmap string string) (key default : string) : string :=
  match environ !! key with
  | Some v => v
  | None => default
  end.

Definition MODEL_NAME (environ : gmap string string) : string :=
  getenv environ "MODEL_NAME" "umm-maybe/AI-image-detector".

(** [DEVICE], from [torch.cuda.is_available()]. *)
Definition DEVICE (cuda_is_available : bool) : string :=
  if cuda_is_available then "cuda" else "cpu".

Inductive StartupRecord :=
| InfoLoading (model device : string)
| InfoLoaded
| ErrorLoadFailed.

(** Lines 35-45: the value of the global [classifier] after the module
    is loaded, and what was logged.  [pipeline task model device] is
    [transformers.pipeline]; [None] stands for a raised exception. *)
Definition load_classifier {Image : Type}
    (pipeline : string -> string -> Z -> option (Classifier Image))
    (environ : gmap string string) (cuda_is_available : bool)
    : option (Classifier Image) * list StartupRecord :=
  let device := DEVICE cuda_is_available in
  let lg := [InfoLoading (MODEL_NAME environ) device] in
  match pipeline "image-classification" (MODEL_NAME environ)
          (if String.eqb device "cuda" then 0 else -1) with
  | Some classifier => (Some classifier, (lg ++ [InfoLoaded])%list)
  | None => (None, (lg ++ [ErrorLoadFailed])%list)
  end.

(** [os.path.join(a, b)] on POSIX paths. *)
Fixpoint ends_with_slash (s : string) : bool :=
  match s with
  | EmptyString => false
  | String c EmptyString => Ascii.eqb c "/"
  | String _ s' => ends_with_slash s'
  end.

Definition os_path_join (a b : string) : string :=
  if String.prefix "/" b then b
  else if String.eqb a "" || ends_with_slash a then a ++ b
  else a ++ "/" ++ b.

Record HealthBody := mkHealth {
  status : string;
  model_loaded : bool;
  device : string;
  template_folder : string;
  template_exists : bool
}.

(** [health()]; [folder] is [app.template_folder] and [path_exists] is
    [os.path.exists]. *)
Definition health {Image : Type} (classifier : option (Classifier Image))
    (cuda_is_available : bool) (folder : string) (path_exists : string -> bool)
    : HealthBody * Z :=
  (mkHealth "ok"
     (match classifier with Some _ => true | None => false end)
     (DEVICE cuda_is_available)
     folder
     (path_exists (os_path_join folder "index.html")),
   200).

(** ** More concrete inputs *)

Module Probe.

(** An upload read to its end before it is validated. *)
Definition consumed_png : FileStorage :=
  mkFile "cat.png" (Some "image/png") Sample.png_bytes 69.

Definition consumed_gif : FileStorage :=
  mkFile "cat.gif" (Some "image/gif") Sample.png_bytes 69.

(** 5 MiB + 1000 bytes. *)
Definition over_jpeg : FileStorage :=
  mkFile "over.jpg" (Some "image/jpeg") (Sample.zeros 5243880) 0.




Definition failing : Classifier (list byte) := fun _ => None.

(** A decoder that refuses everything. *)
Definition never_open (b : list byte) : option unit := None.

Definition gif_request : Request :=
  mkRequest {[ "image" := mkFile "cat.gif" (Some "image/gif") Sample.png_bytes 0 ]} ∅.

Definition pipeline_down (task model : string) (dev : Z) : option (Classifier (list byte)) :=
  None.

Definition pipeline_up (task model : string) (dev : Z) : option (Classifier (list byte)) :=
  Some Sample.two_labels.

End Probe.

(** * Properties *)

(** ** Rounding *)

Module PyNumFacts.
Import PyNum.

#[export] Instance round_half_even_comp : Proper (Qeq ==> eq) round_half_even.
Proof.
  intros x y Hxy. unfold round_half_even.
  rewrite (Qfloor_comp x y Hxy).
  assert (Hc : ((x - inject_Z (Qfloor y) ?= 1 # 2) = (y - inject_Z (Qfloor y) ?= 1 # 2))%Q)
    by (now rewrite Hxy).
  now rewrite Hc.
Qed.

Lemma round_half_even_Z (k : Z) : round_half_even (inject_Z k) = k.
Proof.
  unfold round_half_even. rewrite Qfloor_Z.
  assert (H : (inject_Z k - inject_Z k ?= 1 # 2)%Q = Lt).
  { apply (proj1 (Qlt_alt _ _)). lra. }
  now rewrite H.
Qed.

(** The rounded integer is within one half of the argument. *)
Lemma round_half_even_close (q : Q) :
  (Qabs (inject_Z (round_half_even q) - q) <= 1 # 2)%Q.
Proof.
  unfold round_half_even.
  pose proof (Qfloor_le q) as Hlo.
  pose proof (Qlt_floor q) as Hhi.
  rewrite inject_Z_plus in Hhi. change (inject_Z 1) with 1%Q in Hhi.
  set (fl := Qfloor q) in *.
  assert (Hup : (Qabs (inject_Z (fl + 1) - q) <= 1 # 2)%Q <-> (1 # 2 <= q - inject_Z fl)%Q).
  { rewrite inject_Z_plus. change (inject_Z 1) with 1%Q. split; intros H.
    - apply Qabs_Qle_condition in H. lra.
    - apply Qabs_Qle_condition. lra. }
  assert (Hdn : (Qabs (inject_Z fl - q) <= 1 # 2)%Q <-> (q - inject_Z fl <= 1 # 2)%Q).
  { split; intros H.
    - apply Qabs_Qle_condition in H. lra.
    - apply Qabs_Qle_condition. lra. }
  destruct (q - inject_Z fl ?= 1 # 2)%Q eqn:Hc.
  - apply (proj2 (Qeq_alt _ _)) in Hc.
    destruct (Z.even fl); [apply Hdn | apply Hup]; lra.
  - apply (proj2 (Qlt_alt _ _)) in Hc. apply Hdn. lra.
  - apply (proj2 (Qgt_alt _ _)) in Hc. apply Hup. lra.
Qed.

Lemma round_half_even_bounds (q : Q) (lo hi : Z) :
  (inject_Z lo <= q)%Q -> (q <= inject_Z hi)%Q ->
  lo <= round_half_even q <= hi.
Proof.
  intros Hlo Hhi.
  pose proof (round_half_even_close q) as Hc.
  apply Qabs_Qle_condition in Hc.
  set (k := round_half_even q) in *.
  split.
  - assert (H : (inject_Z (lo - 1) < inject_Z k)%Q).
    { replace (lo - 1) with (lo + -1) by lia.
      rewrite inject_Z_plus. change (inject_Z (-1)) with (-1 # 1)%Q. lra. }
    rewrite <- Zlt_Qlt in H. lia.
  - assert (H : (inject_Z k < inject_Z (hi + 1))%Q).
    { rewrite inject_Z_plus. change (inject_Z 1) with 1%Q. lra. }
    rewrite <- Zlt_Qlt in H. lia.
Qed.

End PyNumFacts.

(** ** Binary64 values *)

Module PyFloatFacts.
Import PyNum PyNumFacts.

Lemma pow2_pos (e : Z) : (0 < pow2 e)%Q.
Proof. apply Qpower_0_lt. reflexivity. Qed.

Lemma pow2_plus (a b : Z) : (pow2 (a + b) == pow2 a * pow2 b)%Q.
Proof. apply Qpower_plus. discriminate. Qed.

Lemma pow2_le (a b : Z) : a <= b -> (pow2 a <= pow2 b)%Q.
Proof. intros H. apply Qpower_le_compat_l; [exact H | discriminate]. Qed.

Lemma pow2_lt (a b : Z) : a < b -> (pow2 a < pow2 b)%Q.
Proof. intros H. apply Qpower_lt_compat_l; [exact H | reflexivity]. Qed.

Lemma pow2_lt_inv (a b : Z) : (pow2 a < pow2 b)%Q -> a < b.
Proof. intros H. apply (Qpower_lt_compat_l_inv 2); [exact H | reflexivity]. Qed.

Lemma pow2_Z (n : Z) : 0 <= n -> (pow2 n == inject_Z (2 ^ n))%Q.
Proof. intros H. symmetry. now apply Zpower_Qpower. Qed.


(** [ilog2] brackets a positive rational between two powers of two. *)
Lemma ilog2_spec (a : Q) :
  (0 < a)%Q -> (pow2 (ilog2 a) <= a)%Q /\ (a < pow2 (ilog2 a + 1))%Q.
Proof.
  intros Ha. destruct a as [n d].
  assert (Hn : 0 < n) by (unfold Qlt in Ha; simpl in Ha; lia).
  unfold ilog2. cbn [Qnum Qden].
  set (ln := Z.log2 n). set (ld := Z.log2 (Z.pos d)).
  assert (Hln : 0 <= ln) by apply Z.log2_nonneg.
  assert (Hld : 0 <= ld) by apply Z.log2_nonneg.
  destruct (Z.log2_spec n Hn) as [Hn1 Hn2]. fold ln in Hn1, Hn2.
  destruct (Z.log2_spec (Z.pos d) (Pos2Z.is_pos d)) as [Hd1 Hd2]. fold ld in Hd1, Hd2.
  set (D := inject_Z (Z.pos d)).
  assert (HD : (0 < D)%Q) by (unfold D, Qlt; simpl; lia).
  assert (HaD : ((n # d) * D == inject_Z n)%Q).
  { unfold D, Qeq, Qmult, inject_Z. simpl. lia. }
  assert (Qn1 : (pow2 ln <= inject_Z n)%Q)
    by (rewrite pow2_Z by lia; now rewrite <- Zle_Qle).
  assert (Qn2 : (inject_Z n < pow2 (ln + 1))%Q).
  { rewrite pow2_Z by lia. rewrite <- Zlt_Qlt. now rewrite <- Z.add_1_r in Hn2. }
  assert (Qd1 : (pow2 ld <= D)%Q)
    by (rewrite pow2_Z by lia; unfold D; now rewrite <- Zle_Qle).
  assert (Qd2 : (D < pow2 (ld + 1))%Q).
  { rewrite pow2_Z by lia. unfold D. rewrite <- Zlt_Qlt. now rewrite <- Z.add_1_r in Hd2. }
  pose proof (pow2_pos (ln - ld)) as Hg.
  pose proof (pow2_pos (ln - ld - 1)) as Hg1.
  pose proof (pow2_pos (ln - ld + 1)) as Hg2.
  assert (Elow : (pow2 (ln - ld - 1) * pow2 (ld + 1) == pow2 ln)%Q)
    by (rewrite <- pow2_plus; now replace (ln - ld - 1 + (ld + 1)) with ln by lia).
  assert (Eup : (pow2 (ln - ld + 1) * pow2 ld == pow2 (ln + 1))%Q)
    by (rewrite <- pow2_plus; now replace (ln - ld + 1 + ld) with (ln + 1) by lia).
  assert (Hlow : (pow2 (ln - ld - 1) < n # d)%Q).
  { apply (Qmult_lt_r _ _ D HD). rewrite HaD.
    apply Qlt_le_trans with (pow2 (ln - ld - 1) * pow2 (ld + 1))%Q.
    - now apply Qmult_lt_l.
    - now rewrite Elow. }
  assert (Hup : (n # d < pow2 (ln - ld + 1))%Q).
  { apply (Qmult_lt_r _ _ D HD). rewrite HaD.
    apply Qlt_le_trans with (pow2 (ln - ld + 1) * pow2 ld)%Q.
    - now rewrite Eup.
    - apply Qmult_le_l; assumption. }
  destruct (Qle_bool (pow2 (ln - ld)) (n # d)) eqn:E.
  - apply Qle_bool_iff in E. split; assumption.
  - assert (Hlt : (n # d < pow2 (ln - ld))%Q).
    { apply Qnot_le_lt. intros H. apply Qle_bool_iff in H. congruence. }
    replace (ln - ld - 1 + 1) with (ln - ld) by lia.
    split; [now apply Qlt_le_weak | exact Hlt].
Qed.

Lemma ilog2_unique (a : Q) (g : Z) :
  (pow2 g <= a)%Q -> (a < pow2 (g + 1))%Q -> ilog2 a = g.
Proof.
  intros H1 H2.
  assert (Ha : (0 < a)%Q) by (pose proof (pow2_pos g); lra).
  destruct (ilog2_spec a Ha) as [H3 H4].
  assert (ilog2 a < g + 1) by (apply pow2_lt_inv; lra).
  assert (g < ilog2 a + 1) by (apply pow2_lt_inv; lra).
  lia.
Qed.

Lemma ilog2_mono (a b : Q) : (0 < a)%Q -> (a <= b)%Q -> ilog2 a <= ilog2 b.
Proof.
  intros Ha Hab.
  destruct (ilog2_spec a Ha) as [H1 _].
  destruct (ilog2_spec b) as [_ H2]; [lra |].
  assert (ilog2 a < ilog2 b + 1) by (apply pow2_lt_inv; lra).
  lia.
Qed.


Lemma round_half_even_within (q : Q) :
  (- (1 # 2) <= inject_Z (round_half_even q) - q <= 1 # 2)%Q.
Proof.
  unfold round_half_even.
  pose proof (Qfloor_le q) as Hlo.
  pose proof (Qlt_floor q) as Hhi.
  rewrite inject_Z_plus in Hhi. change (inject_Z 1) with 1%Q in Hhi.
  set (fl := Qfloor q) in *.
  destruct (q - inject_Z fl ?= 1 # 2)%Q eqn:Hc.
  - apply (proj2 (Qeq_alt _ _)) in Hc.
    destruct (Z.even fl); [| rewrite inject_Z_plus; change (inject_Z 1) with 1%Q]; lra.
  - apply (proj2 (Qlt_alt _ _)) in Hc. lra.
  - apply (proj2 (Qgt_alt _ _)) in Hc.
    rewrite inject_Z_plus. change (inject_Z 1) with 1%Q. lra.
Qed.

Lemma round_half_even_mono (x y : Q) :
  (x <= y)%Q -> round_half_even x <= round_half_even y.
Proof.
  intros Hxy.
  destruct (Z.le_gt_cases (round_half_even x) (round_half_even y)) as [H | H];
    [exact H |].
  pose proof (round_half_even_within x) as Hx.
  pose proof (round_half_even_within y) as Hy.
  assert (Hz : (inject_Z (round_half_even y + 1) <= inject_Z (round_half_even x))%Q)
    by (rewrite <- Zle_Qle; lia).
  rewrite inject_Z_plus in Hz. change (inject_Z 1) with 1%Q in Hz.
  assert (Heq : (x == y)%Q) by lra.
  rewrite (round_half_even_comp x y Heq) in H. lia.
Qed.



Lemma nearest_abs_nonneg (a : Q) : (0 <= a)%Q -> (0 <= nearest_abs a)%Q.
Proof.
  intros Ha. unfold nearest_abs. set (e := exponent a).
  pose proof (pow2_pos e) as He.
  assert (H0 : 0 <= round_half_even (a / pow2 e)).
  { rewrite <- (round_half_even_Z 0). apply round_half_even_mono.
    apply Qle_shift_div_l; [exact He | change (inject_Z 0) with 0%Q; lra]. }
  rewrite Zle_Qle in H0. change (inject_Z 0) with 0%Q in H0.
  apply Qmult_le_0_compat; [exact H0 | lra].
Qed.



Lemma nearest_abs_zero (a : Q) : (a == 0)%Q -> (nearest_abs a == 0)%Q.
Proof.
  intros Ha. unfold nearest_abs.
  assert (H : (a / pow2 (exponent a) == inject_Z 0)%Q).
  { generalize (pow2 (exponent a)). intros P.
    rewrite Ha. unfold Qdiv. change (inject_Z 0) with 0%Q. ring. }
  rewrite (round_half_even_comp _ _ H), round_half_even_Z.
  change (inject_Z 0) with 0%Q. ring.
Qed.

Lemma exponent_comp (a b : Q) : (0 < a)%Q -> (a == b)%Q -> exponent a = exponent b.
Proof.
  intros Ha Hab. unfold exponent. f_equal. f_equal.
  destruct (ilog2_spec a Ha) as [H1 H2].
  symmetry. apply ilog2_unique; now rewrite <- Hab.
Qed.

Lemma nearest_abs_comp (a b : Q) :
  (0 <= a)%Q -> (a == b)%Q -> (nearest_abs a == nearest_abs b)%Q.
Proof.
  intros Ha Hab.
  destruct (Qlt_le_dec 0 a) as [Hpos | Hz].
  - unfold nearest_abs. rewrite <- (exponent_comp a b Hpos Hab).
    assert (H : (a / pow2 (exponent a) == b / pow2 (exponent a))%Q)
      by (generalize (pow2 (exponent a)); intros P; now rewrite Hab).
    now rewrite (round_half_even_comp _ _ H).
  - assert (Ha0 : (a == 0)%Q) by lra.
    rewrite (nearest_abs_zero a Ha0), (nearest_abs_zero b); [reflexivity |].
    now rewrite <- Hab.
Qed.

Lemma nearest_of_nonneg (q : Q) : (0 <= q)%Q -> (nearest q == nearest_abs q)%Q.
Proof.
  intros Hq. unfold nearest.
  assert (H : Qle_bool 0 q = true) by now apply Qle_bool_iff.
  rewrite H. apply nearest_abs_comp; [apply Qabs_nonneg | now apply Qabs_pos].
Qed.

Lemma nearest_of_neg (q : Q) : (q < 0)%Q -> (nearest q == - nearest_abs (- q))%Q.
Proof.
  intros Hq. unfold nearest.
  assert (H : Qle_bool 0 q = false).
  { destruct (Qle_bool 0 q) eqn:E; [| reflexivity]. apply Qle_bool_iff in E. lra. }
  rewrite H. apply Qopp_comp.
  apply nearest_abs_comp; [apply Qabs_nonneg | apply Qabs_neg; lra].
Qed.

#[export] Instance nearest_comp : Proper (Qeq ==> Qeq) nearest.
Proof.
  intros x y Hxy.
  destruct (Qlt_le_dec x 0) as [Hneg | Hpos].
  - rewrite (nearest_of_neg x Hneg), (nearest_of_neg y) by (rewrite <- Hxy; exact Hneg).
    apply Qopp_comp. apply nearest_abs_comp; [lra | now rewrite Hxy].
  - rewrite (nearest_of_nonneg x Hpos), (nearest_of_nonneg y) by (rewrite <- Hxy; exact Hpos).
    now apply nearest_abs_comp.
Qed.

Lemma nearest_nonneg (q : Q) : (0 <= q)%Q -> (0 <= nearest q)%Q.
Proof.
  intros Hq. rewrite (nearest_of_nonneg q Hq). now apply nearest_abs_nonneg.
Qed.


Lemma nearest_abs_mono (a b : Q) :
  (0 <= a)%Q -> (a <= b)%Q -> (nearest_abs a <= nearest_abs b)%Q.
Proof.
  intros Ha Hab.
  destruct (Qlt_le_dec 0 a) as [Hpos | Hz].
  2: { assert (Ha0 : (a == 0)%Q) by lra.
       rewrite (nearest_abs_zero a Ha0). apply nearest_abs_nonneg. lra. }
  assert (Hb : (0 < b)%Q) by lra.
  pose proof (ilog2_mono a b Hpos Hab) as Hlog.
  destruct (ilog2_spec a Hpos) as [_ Ha2].
  destruct (ilog2_spec b Hb) as [Hb1 _].
  pose proof (pow2_pos (exponent a)) as HPa.
  pose proof (pow2_pos (exponent b)) as HPb.
  destruct (Z.eq_dec (exponent a) (exponent b)) as [Heq | Hne].
  - unfold nearest_abs. rewrite <- Heq.
    apply Qmult_le_compat_r; [| lra].
    rewrite <- Zle_Qle. apply round_half_even_mono.
    apply Qmult_le_compat_r; [exact Hab |].
    apply Qlt_le_weak, Qinv_lt_0_compat, HPa.
  - assert (Hlt : exponent a < exponent b) by (unfold exponent in *; lia).
    assert (Heb : exponent b = ilog2 b - 52) by (unfold exponent in *; lia).
    assert (Hea : ilog2 a + 1 <= exponent a + 53) by (unfold exponent; lia).
    apply Qle_trans with (pow2 (exponent b + 52)).
    + apply Qle_trans with (pow2 (exponent a + 53)); [| apply pow2_le; lia].
      unfold nearest_abs.
      rewrite (Z.add_comm (exponent a) 53), pow2_plus.
      apply Qmult_le_compat_r; [| lra].
      rewrite (pow2_Z 53) by lia. rewrite <- Zle_Qle.
      rewrite <- (round_half_even_Z (2 ^ 53)). apply round_half_even_mono.
      rewrite <- (pow2_Z 53) by lia.
      apply Qle_shift_div_r; [exact HPa |].
      rewrite <- pow2_plus. apply Qlt_le_weak.
      apply Qlt_le_trans with (pow2 (ilog2 a + 1)); [exact Ha2 |].
      apply pow2_le. lia.
    + unfold nearest_abs.
      rewrite (Z.add_comm (exponent b) 52), pow2_plus.
      apply Qmult_le_compat_r; [| lra].
      rewrite (pow2_Z 52) by lia. rewrite <- Zle_Qle.
      rewrite <- (round_half_even_Z (2 ^ 52)) at 1. apply round_half_even_mono.
      rewrite <- (pow2_Z 52) by lia.
      apply Qle_shift_div_l; [exact HPb |].
      rewrite <- pow2_plus.
      replace (52 + exponent b) with (ilog2 b) by lia. exact Hb1.
Qed.

(** Rounding to binary64 keeps the order. *)
Lemma nearest_mono (x y : Q) : (x <= y)%Q -> (nearest x <= nearest y)%Q.
Proof.
  intros Hxy.
  destruct (Qlt_le_dec x 0) as [Hx | Hx]; destruct (Qlt_le_dec y 0) as [Hy | Hy].
  - rewrite (nearest_of_neg x Hx), (nearest_of_neg y Hy).
    apply Qopp_le_compat. apply nearest_abs_mono; lra.
  - rewrite (nearest_of_neg x Hx).
    pose proof (nearest_nonneg y Hy).
    pose proof (nearest_abs_nonneg (- x)). lra.
  - lra.
  - rewrite (nearest_of_nonneg x Hx), (nearest_of_nonneg y Hy).
    now apply nearest_abs_mono.
Qed.

End PyFloatFacts.

(** ** Substrings *)

Module PyStrFacts.
Import PyStr.

Lemma append_cons (c : ascii) (p t : string) :
  String c p ++ t = String c (p ++ t).
Proof. reflexivity. Qed.

Lemma prefix_app (p s : string) :
  String.prefix p s = true <-> exists post, s = p ++ post.
Proof.
  revert s. induction p as [|c p IH]; intros s.
  - split; [intros _; now exists s | now destruct s].
  - destruct s as [|d s]; simpl.
    + split; [discriminate | intros [post H]; discriminate].
    + destruct (Ascii.ascii_dec c d) as [->|Hne].
      * rewrite IH. split; intros [post H]; exists post;
          rewrite append_cons in *; congruence.
      * split; [discriminate | intros [post H]; rewrite append_cons in H; congruence].
Qed.

Lemma py_in_Contains (kw s : string) :
  py_in kw s = true <-> Contains kw s.
Proof.
  unfold Contains. induction s as [|c s IH].
  - cbn [py_in]. rewrite orb_false_r, prefix_app. split.
    + intros [post H]. now exists "", post.
    + intros ([|d pre] & post & H); [now exists post | discriminate H].
  - cbn [py_in]. rewrite orb_true_iff, prefix_app, IH. split.
    + intros [[post H] | (pre & post & H)].
      * now exists "", post.
      * exists (String c pre), post. rewrite append_cons. now rewrite H.
    + intros ([|d pre] & post & H).
      * left. now exists post.
      * right. exists pre, post. rewrite append_cons in H. congruence.
Qed.

End PyStrFacts.

(** ** Validation *)

Lemma not_allowed_false (ct : option string) :
  not_allowed ct = false <-> DeclaredAllowed ct.
Proof.
  unfold not_allowed, DeclaredAllowed, ALLOWED_EXTENSIONS.
  destruct ct as [s|].
  - rewrite negb_false_iff, bool_decide_eq_true.
    rewrite !elem_of_union, !elem_of_singleton. split.
    + intros [[-> | ->] | ->]; auto.
    + intros [H | [H | H]]; injection H as ->; auto.
  - split; [discriminate | intros [H | [H | H]]; discriminate].
Qed.

Lemma not_allowed_true (ct : option string) :
  not_allowed ct = true <-> ~ DeclaredAllowed ct.
Proof.
  rewrite <- not_allowed_false.
  destruct (not_allowed ct); split; intros H;
    first [reflexivity | discriminate | now destruct H].
Qed.

(** The three outcomes of [validate_image], by the declared type and the
    measured size. *)
Lemma validate_image_cases (f : FileStorage) :
  fst (validate_image f) =
    if not_allowed (content_type f) then (false, invalid_type_msg (content_type f))
    else if MAX_FILE_SIZE <? size_in_bytes f then (false, too_large_msg (size_in_bytes f))
    else (true, "").
Proof.
  unfold validate_image. destruct (not_allowed (content_type f)); [reflexivity|].
  change (Stream.tell (Stream.seek_end f)) with (size_in_bytes f).
  now destruct (MAX_FILE_SIZE <? size_in_bytes f).
Qed.

(** The file object after the call: untouched when the type is refused,
    rewound to the start otherwise. *)
Lemma validate_image_file (f : FileStorage) :
  snd (validate_image f) =
    if not_allowed (content_type f) then f else Stream.set_position f 0.
Proof.
  unfold validate_image. destruct (not_allowed (content_type f)); [reflexivity|].
  now destruct (MAX_FILE_SIZE <? _).
Qed.

Lemma verdict_invalid_type (ct : option string) :
  verdict (false, invalid_type_msg ct) = InvalidType.
Proof. reflexivity. Qed.

Lemma verdict_too_large (size : Z) :
  verdict (false, too_large_msg size) = TooLarge.
Proof. reflexivity. Qed.

Lemma size_zeros (n : N) : Z.of_nat (length (Sample.zeros n)) = Z.of_N n.
Proof. unfold Sample.zeros. now rewrite length_replicate, N_nat_Z. Qed.

(** C3: validation rejects with InvalidType exactly when the declared
    content type is not image/jpeg, image/png or image/webp, whatever the
    size; for an allowed type it rejects with TooLarge exactly when the
    size is strictly greater than 5 * 1024 * 1024 bytes; otherwise it
    succeeds, so an allowed upload of exactly 5 MiB is accepted. *)
Theorem validate_image_outcome (f : FileStorage) :
  let r := fst (validate_image f) in
  (verdict r = InvalidType <-> ~ DeclaredAllowed (content_type f)) /\
  (verdict r = TooLarge <->
     DeclaredAllowed (content_type f) /\ 5 * 1024 * 1024 < size_in_bytes f) /\
  (r = (true, "") <->
     DeclaredAllowed (content_type f) /\ size_in_bytes f <= 5 * 1024 * 1024) /\
  (DeclaredAllowed (content_type f) -> size_in_bytes f = 5 * 1024 * 1024 ->
     r = (true, "")).
Proof.
  cbv zeta. rewrite validate_image_cases.
  change (5 * 1024 * 1024) with MAX_FILE_SIZE.
  destruct (not_allowed (content_type f)) eqn:Hty.
  - apply not_allowed_true in Hty.
    rewrite verdict_invalid_type.
    repeat split; intros; first [done | tauto | discriminate].
  - apply not_allowed_false in Hty.
    destruct (Z.ltb_spec MAX_FILE_SIZE (size_in_bytes f)) as [Hsz | Hsz].
    + rewrite verdict_too_large.
      repeat split; intros; first [done | tauto | discriminate | lia].
    + repeat split; intros; first [done | tauto | discriminate | lia].
Qed.

(** C2 fails as stated: a 5,242,881-byte upload declared image/gif is
    rejected with InvalidType, not TooLarge. *)
Lemma too_large_not_regardless_of_type :
  5242880 < size_in_bytes Sample.big_gif /\
  verdict (fst (validate_image Sample.big_gif)) = InvalidType /\
  verdict (fst (validate_image Sample.big_gif)) <> TooLarge.
Proof.
  split; [| split].
  - unfold size_in_bytes. cbn [stream Sample.big_gif]. rewrite size_zeros. reflexivity.
  - rewrite validate_image_cases. reflexivity.
  - rewrite validate_image_cases. discriminate.
Qed.

(** C2, amended: an upload of more than 5,242,880 bytes whose declared
    content type is allowed is rejected with TooLarge; when the declared
    type is not allowed the rejection is InvalidType. *)
Theorem validate_image_too_large (f : FileStorage) :
  5242880 < size_in_bytes f ->
  (DeclaredAllowed (content_type f) ->
     fst (validate_image f) = (false, too_large_msg (size_in_bytes f)) /\
     verdict (fst (validate_image f)) = TooLarge) /\
  (~ DeclaredAllowed (content_type f) ->
     fst (validate_image f) = (false, invalid_type_msg (content_type f)) /\
     verdict (fst (validate_image f)) = InvalidType).
Proof.
  intros Hsz. rewrite validate_image_cases. split; intros Hty.
  - apply not_allowed_false in Hty. rewrite Hty.
    assert (H : (MAX_FILE_SIZE <? size_in_bytes f) = true) by now apply Z.ltb_lt.
    rewrite H. split; [reflexivity | apply verdict_too_large].
  - apply not_allowed_true in Hty. rewrite Hty.
    split; [reflexivity | apply verdict_invalid_type].
Qed.

Lemma validate_image_too_large_witness :
  5242880 < size_in_bytes Sample.big_jpeg /\
  verdict (fst (validate_image Sample.big_jpeg)) = TooLarge.
Proof.
  assert (Hsz : 5242880 < size_in_bytes Sample.big_jpeg).
  { unfold size_in_bytes. cbn [stream Sample.big_jpeg]. rewrite size_zeros. reflexivity. }
  split; [exact Hsz |].
  apply (validate_image_too_large Sample.big_jpeg Hsz).
  left. reflexivity.
Defined.

(** C8: validation leaves the uploaded stream as it found it.  For an
    upload as the request hands it over (read position at the start),
    whether validation succeeds or fails the file object afterwards is the
    same as before, and reading it yields all its bytes from the start. *)
Theorem validate_image_restores_stream (f : FileStorage) :
  position f = 0%nat ->
  snd (validate_image f) = f /\
  fst (Stream.read (snd (validate_image f))) = stream f.
Proof.
  intros Hpos.
  assert (H : snd (validate_image f) = f).
  { rewrite validate_image_file. destruct (not_allowed (content_type f)); [reflexivity|].
    destruct f as [fn ct st p]. simpl in Hpos. subst p. reflexivity. }
  rewrite H. split; [reflexivity|].
  unfold Stream.read. rewrite Hpos. reflexivity.
Qed.

Lemma validate_image_restores_stream_witness :
  position Sample.small_png = 0%nat /\
  snd (validate_image Sample.small_png) = Sample.small_png /\
  fst (Stream.read (snd (validate_image Sample.small_png))) = Sample.png_bytes.
Proof.
  split; [reflexivity |].
  apply (validate_image_restores_stream Sample.small_png). reflexivity.
Defined.

(** Measuring the size does move the read position to the end ... *)
Lemma seek_end_tell (f : FileStorage) :
  Stream.tell (Stream.seek_end f) = size_in_bytes f /\
  fst (Stream.read (Stream.seek_end f)) = [].
Proof.
  split; [reflexivity|]. unfold Stream.read, Stream.seek_end. simpl.
  apply drop_all.
Qed.

(** ... and an accepted or too large upload is rewound to the start,
    wherever its read position was. *)
Lemma validate_image_rewinds (f : FileStorage) :
  DeclaredAllowed (content_type f) ->
  position (snd (validate_image f)) = 0%nat /\
  stream (snd (validate_image f)) = stream f /\
  fst (Stream.read (snd (validate_image f))) = stream f.
Proof.
  intros Hty. apply not_allowed_false in Hty.
  rewrite validate_image_file, Hty. repeat split; reflexivity.
Qed.

(** ** Label normalization *)

Lemma prediction_of_cases (raw_label : string) :
  prediction_of raw_label = "AI Generated" \/ prediction_of raw_label = "Real".
Proof. unfold prediction_of. destruct (existsb _ _); auto. Qed.

(** C4: normalization returns AI Generated if and only if the lowercased
    label contains one of the substrings artificial, fake, ai, generated,
    synthetic, and Real otherwise; the five labels of the specification
    are normalized as it says. *)
Lemma lower_app (a b : string) :
  PyStr.lower (a ++ b) = PyStr.lower a ++ PyStr.lower b.
Proof.
  induction a as [|c a IH]; [reflexivity|].
  rewrite PyStrFacts.append_cons. cbn [PyStr.lower].
  now rewrite PyStrFacts.append_cons, IH.
Qed.

Lemma append_assoc (a b c : string) : (a ++ b) ++ c = a ++ b ++ c.
Proof.
  induction a as [|x a IH]; [reflexivity|].
  now rewrite !PyStrFacts.append_cons, IH.
Qed.

Lemma Contains_app (kw s pre post : string) :
  Contains kw s -> Contains kw (pre ++ s ++ post).
Proof.
  intros (p & q & ->). exists (pre ++ p), (q ++ post).
  now rewrite !append_assoc.
Qed.

Lemma normalize_AI (raw : string) :
  normalize raw = "AI Generated" <->
  exists kw, In kw KEYWORDS /\ Contains kw (PyStr.lower raw).
Proof.
  unfold normalize, prediction_of.
  assert (Hex : existsb (fun kw => PyStr.py_in kw (PyStr.lower raw)) KEYWORDS = true <->
                exists kw, In kw KEYWORDS /\ Contains kw (PyStr.lower raw)).
  { rewrite existsb_exists. split; intros (kw & Hin & H); exists kw; split; auto;
      now apply PyStrFacts.py_in_Contains. }
  destruct (existsb _ KEYWORDS); split; intros H.
  - now apply Hex.
  - reflexivity.
  - discriminate H.
  - apply Hex in H. discriminate H.
Qed.

(** X5: a label that holds one of the five keywords written in any mix of
    upper and lower case, anywhere in it, is normalized to AI Generated. *)

(** Lowering acts character by character. *)
Lemma lower_split (s a b : string) :
  PyStr.lower s = a ++ b ->
  exists s1 s2, s = s1 ++ s2 /\ PyStr.lower s1 = a /\ PyStr.lower s2 = b.
Proof.
  revert s. induction a as [|c a IH]; intros s H.
  - now exists "", s.
  - destruct s as [|x s]; [discriminate H |].
    rewrite PyStrFacts.append_cons in H. cbn [PyStr.lower] in H.
    injection H as Hx Hs.
    destruct (IH s Hs) as (s1 & s2 & -> & H1 & H2).
    exists (String x s1), s2. rewrite PyStrFacts.append_cons.
    cbn [PyStr.lower]. now rewrite Hx, H1.
Qed.

Lemma lower_ascii_folds (c : ascii) : folds_to c (PyStr.lower_ascii c).
Proof.
  unfold folds_to, PyStr.lower_ascii.
  destruct ((65 <=? N_of_ascii c) && (N_of_ascii c <=? 90))%N eqn:E; [| now left].
  apply andb_true_iff in E as [E1 E2].
  apply N.leb_le in E1, E2. right. repeat split; try assumption.
  apply N_ascii_embedding. lia.
Qed.

Lemma folds_lower_ascii (c d : ascii) :
  folds_to c d -> PyStr.lower_ascii c = PyStr.lower_ascii d.
Proof.
  intros [-> | (H1 & H2 & H3)]; [reflexivity |].
  unfold PyStr.lower_ascii. rewrite H3.
  assert (E : ((65 <=? N_of_ascii c) && (N_of_ascii c <=? 90))%N = true).
  { apply andb_true_iff. split; now apply N.leb_le. }
  assert (E' : ((65 <=? N_of_ascii c + 32) && (N_of_ascii c + 32 <=? 90))%N = false).
  { apply andb_false_iff. right. apply N.leb_gt. lia. }
  rewrite E, E', <- H3. apply ascii_N_embedding.
Qed.

Lemma lower_matches (w : string) : matches_ignoring_case w (PyStr.lower w).
Proof.
  induction w as [|c w IH]; [exact I |].
  cbn [PyStr.lower matches_ignoring_case]. split; [apply lower_ascii_folds | exact IH].
Qed.

Lemma matches_lower (w kw : string) :
  matches_ignoring_case w kw -> PyStr.lower w = PyStr.lower kw.
Proof.
  revert kw. induction w as [|c w IH]; intros [|d kw] H; try (now destruct H).
  destruct H as [Hc Hw]. cbn [PyStr.lower].
  now rewrite (folds_lower_ascii c d Hc), (IH kw Hw).
Qed.

Lemma keyword_lower (kw : string) : In kw KEYWORDS -> PyStr.lower kw = kw.
Proof.
  intros H. repeat (destruct H as [<- | H]; [reflexivity |]). destruct H.
Qed.

Lemma normalize_AI_ignoring_case (raw : string) :
  normalize raw = "AI Generated" <->
  exists kw, In kw KEYWORDS /\ ContainsIgnoringCase kw raw.
Proof.
  rewrite normalize_AI. split; intros (kw & Hin & Hc); exists kw; (split; [exact Hin |]).
  - destruct Hc as (pre & post & H).
    apply lower_split in H as (s1 & r & -> & H1 & H).
    apply lower_split in H as (w & s3 & -> & Hw & H3).
    exists s1, w, s3. split; [reflexivity |].
    rewrite <- Hw. apply lower_matches.
  - destruct Hc as (pre & w & post & -> & Hm).
    apply matches_lower in Hm. rewrite (keyword_lower kw Hin) in Hm.
    rewrite !lower_app, Hm. now exists (PyStr.lower pre), (PyStr.lower post).
Qed.

(** C4: for a label of ASCII characters, normalization returns AI
    Generated if and only if the label holds one of the substrings
    artificial, fake, ai, generated, synthetic in any mix of capital and
    small letters, which is to say that the lowercased label contains it,
    and Real otherwise.  A label that holds one of them is AI Generated
    whatever else it holds, no label gets a third value, and the five
    labels of the specification are normalized as it says. *)
Theorem normalize_keywords :
  (forall raw : string,
     (exists kw, In kw ["artificial"; "fake"; "ai"; "generated"; "synthetic"] /\
                 ContainsIgnoringCase kw raw) ->
     normalize raw = "AI Generated") /\
  (forall raw : string,
     is_ascii raw ->
     (normalize raw = "AI Generated" <->
        exists kw, In kw ["artificial"; "fake"; "ai"; "generated"; "synthetic"] /\
                   ContainsIgnoringCase kw raw) /\
     (normalize raw = "AI Generated" <->
        exists kw, In kw ["artificial"; "fake"; "ai"; "generated"; "synthetic"] /\
                   Contains kw (PyStr.lower raw)) /\
     (normalize raw = "Real" <->
        ~ exists kw, In kw ["artificial"; "fake"; "ai"; "generated"; "synthetic"] /\
                     ContainsIgnoringCase kw raw)) /\
  (forall raw : string, normalize raw = "AI Generated" \/ normalize raw = "Real") /\
  normalize "AI-generated" = "AI Generated" /\
  normalize "fake photo" = "AI Generated" /\
  normalize "synthetic art" = "AI Generated" /\
  normalize "real" = "Real" /\
  normalize "photograph" = "Real".
Proof.
  change ["artificial"; "fake"; "ai"; "generated"; "synthetic"] with KEYWORDS.
  split; [| split; [| split; [| repeat split; reflexivity]]].
  - intros raw H. now apply normalize_AI_ignoring_case.
  - intros raw _. split; [apply normalize_AI_ignoring_case | split; [apply normalize_AI |]].
    rewrite <- normalize_AI_ignoring_case.
    destruct (prediction_of_cases (PyStr.lower raw)) as [H | H];
      unfold normalize; rewrite H; split; intros H'; try discriminate; try reflexivity.
    now destruct H'.
  - intros raw. apply prediction_of_cases.
Qed.

Lemma normalize_keywords_witness :
  normalize "Deep FAKE v2" = "AI Generated" /\
  (exists kw, In kw ["artificial"; "fake"; "ai"; "generated"; "synthetic"] /\
              ContainsIgnoringCase kw "AI-generated") /\
  normalize "Fotograf" = "Real".
Proof.
  split; [| split].
  - apply (proj1 normalize_keywords "Deep FAKE v2").
    exists "fake". split; [right; left; reflexivity |].
    exists "Deep ", "FAKE", " v2". split; [reflexivity |].
    repeat split; right; repeat split; try reflexivity; discriminate.
  - apply (proj1 (proj1 (proj2 normalize_keywords) "AI-generated" ltac:(repeat split))).
    reflexivity.
  - reflexivity.
Defined.

(** ** Explanation text *)

(** Strict bounds on the argument bound the rounded integer. *)
Lemma round_half_even_strict (q : Q) (lo hi : Z) :
  (inject_Z lo - (1 # 2) < q)%Q -> (q < inject_Z hi + (1 # 2))%Q ->
  lo <= PyNum.round_half_even q <= hi.
Proof.
  intros Hlo Hhi.
  pose proof (PyNumFacts.round_half_even_close q) as Hc.
  apply Qabs_Qle_condition in Hc.
  set (k := PyNum.round_half_even q) in *.
  split.
  - assert (H : (inject_Z (lo + -1) < inject_Z k)%Q).
    { rewrite inject_Z_plus. change (inject_Z (-1)) with (-1 # 1)%Q. lra. }
    rewrite <- Zlt_Qlt in H. lia.
  - assert (H : (inject_Z k < inject_Z (hi + 1))%Q).
    { rewrite inject_Z_plus. change (inject_Z 1) with 1%Q. lra. }
    rewrite <- Zlt_Qlt in H. lia.
Qed.

Lemma InBand_unique (c : Q) (b b' : Band) : InBand c b -> InBand c b' -> b' = b.
Proof. destruct b, b'; simpl; intros H H'; first [reflexivity | lra]. Qed.

Lemma template_injective (ai ai' : bool) (b b' : Band) :
  template ai b = template ai' b' -> ai = ai' /\ b = b'.
Proof.
  destruct ai, ai', b, b'; intros H; first [now split | discriminate H].
Qed.

Lemma InBand_total (c : Q) : exists b, InBand c b.
Proof.
  destruct (Qlt_le_dec c 0.70) as [H | H]; [now exists Low |].
  destruct (Qlt_le_dec c 0.90) as [H' | H']; [now exists Medium | now exists High].
Qed.


(** *** The percentage as a float *)











(** *** The bands on floats *)

Lemma FloatBand_total (c : Q) : exists b, FloatBand c b.
Proof.
  destruct (Qlt_le_dec (PyNum.nearest c) (PyNum.nearest 0.70)) as [H | H];
    [now exists Low |].
  destruct (Qlt_le_dec (PyNum.nearest c) (PyNum.nearest 0.90)) as [H' | H'];
    [now exists Medium | now exists High].
Qed.

Lemma thresholds_apart : (PyNum.nearest 0.70 < PyNum.nearest 0.90)%Q.
Proof. vm_compute. reflexivity. Qed.

Lemma FloatBand_unique (c : Q) (b b' : Band) :
  FloatBand c b -> FloatBand c b' -> b' = b.
Proof.
  pose proof thresholds_apart.
  destruct b, b'; simpl; intros H1 H2; first [reflexivity | lra].
Qed.

Lemma ge_true (x y : Q) :
  PyNum.ge x y = true <-> (PyNum.nearest y <= PyNum.nearest x)%Q.
Proof. apply Qle_bool_iff. Qed.

Lemma ge_false (x y : Q) :
  PyNum.ge x y = false <-> (PyNum.nearest x < PyNum.nearest y)%Q.
Proof.
  unfold PyNum.ge. split; intros H.
  - apply Qnot_le_lt. intros H'. apply Qle_bool_iff in H'. congruence.
  - destruct (Qle_bool _ _) eqn:E; [| reflexivity]. apply Qle_bool_iff in E. lra.
Qed.

(** The template is chosen by the band of the float. *)
Lemma build_explanation_band (lbl : string) (c : Q) (b : Band) :
  FloatBand c b ->
  build_explanation lbl c =
    fill (template (String.eqb lbl "AI Generated") b)
         (PyNum.str_tenths (PyNum.round (PyNum.mul c 100) 1)).
Proof.
  intros Hb. pose proof thresholds_apart as Hap. unfold build_explanation.
  destruct (PyNum.ge c 0.90) eqn:E9; [| destruct (PyNum.ge c 0.70) eqn:E7].
  - apply ge_true in E9. destruct b; simpl in Hb; try lra.
    now destruct (String.eqb lbl "AI Generated").
  - apply ge_false in E9. apply ge_true in E7.
    destruct b; simpl in Hb; try lra.
    now destruct (String.eqb lbl "AI Generated").
  - apply ge_false in E9. apply ge_false in E7.
    destruct b; simpl in Hb; try lra.
    now destruct (String.eqb lbl "AI Generated").
Qed.

(** A confidence of four decimals is at or above a threshold as a float
    exactly when it is as a decimal. *)
Lemma decimal_threshold (n t : Z) (below : Q) :
  (below == (t - 1) # 10000)%Q ->
  (PyNum.nearest below < PyNum.nearest (t # 10000))%Q ->
  (PyNum.nearest (t # 10000) <= PyNum.nearest (n # 10000))%Q <-> t <= n.
Proof.
  intros Hbelow Hgap. split; intros H.
  - destruct (Z.le_gt_cases t n) as [Hle | Hgt]; [exact Hle |].
    assert (Hq : (n # 10000 <= below)%Q).
    { rewrite Hbelow. unfold Qle. simpl. lia. }
    apply PyFloatFacts.nearest_mono in Hq. lra.
  - apply PyFloatFacts.nearest_mono. unfold Qle. simpl. lia.
Qed.

Lemma decimal_high (n : Z) :
  (PyNum.nearest 0.90 <= PyNum.nearest (n # 10000))%Q <-> 9000 <= n.
Proof.
  assert (E : (0.90 == 9000 # 10000)%Q) by reflexivity.
  rewrite (PyFloatFacts.nearest_comp _ _ E).
  apply (decimal_threshold n 9000 (8999 # 10000)); [reflexivity |].
  vm_compute. reflexivity.
Qed.

Lemma decimal_middle (n : Z) :
  (PyNum.nearest 0.70 <= PyNum.nearest (n # 10000))%Q <-> 7000 <= n.
Proof.
  assert (E : (0.70 == 7000 # 10000)%Q) by reflexivity.
  rewrite (PyFloatFacts.nearest_comp _ _ E).
  apply (decimal_threshold n 7000 (6999 # 10000)); [reflexivity |].
  vm_compute. reflexivity.
Qed.


Lemma FloatBand_decimal (n : Z) (b : Band) :
  FloatBand (n # 10000) b <->
  match b with
  | High => 9000 <= n
  | Medium => 7000 <= n < 9000
  | Low => n < 7000
  end.
Proof.
  pose proof (decimal_high n) as H9. pose proof (decimal_middle n) as H7.
  destruct b; simpl.
  - exact H9.
  - rewrite H7. split; intros [Ha Hb]; (split; [exact Ha |]).
    + destruct (Z.lt_ge_cases n 9000) as [Hl | Hg]; [exact Hl |].
      apply H9 in Hg. lra.
    + apply Qnot_le_lt. intros Hc. apply H9 in Hc. lia.
  - split; intros Ha.
    + destruct (Z.lt_ge_cases n 7000) as [Hl | Hg]; [exact Hl |].
      apply H7 in Hg. lra.
    + apply Qnot_le_lt. intros Hc. apply H7 in Hc. lia.
Qed.

#[export] Instance FloatBand_comp : Proper (Qeq ==> eq ==> iff) FloatBand.
Proof.
  intros c c' Hc b b' <-.
  pose proof (PyFloatFacts.nearest_comp c c' Hc) as Hn.
  destruct b; simpl; now rewrite Hn.
Qed.

#[export] Instance InBand_comp : Proper (Qeq ==> eq ==> iff) InBand.
Proof.
  intros c c' Hc b b' <-. destruct b; simpl; now rewrite Hc.
Qed.

(** *** Reading a number back *)












(** *** The explanation of a confidence in the unit interval *)




(** ** Selecting the top result *)

(** Handler code leaves the log it was given in place. *)
Lemma max_go_log (rest : list RawResult) (best : RawResult) (kbest : Q) (lg : list LogRecord) :
  max_go best kbest rest lg = (fst (max_go best kbest rest []), lg).
Proof.
  revert best kbest. induction rest as [|x rest IH]; intros best kbest; [reflexivity|].
  cbn [max_go]. destruct (score x) as [k|]; [|reflexivity].
  unfold mbind, M_bind, getitem, mret, M_ret.
  destruct (Qle_bool k kbest); apply IH.
Qed.

Lemma max_by_score_log (results : list RawResult) (lg : list LogRecord) :
  max_by_score results lg = (fst (max_by_score results []), lg).
Proof.
  destruct results as [|x rest]; [reflexivity|].
  unfold max_by_score. destruct (score x) as [k|]; [|reflexivity].
  unfold mbind, M_bind, getitem, mret, M_ret. apply max_go_log.
Qed.



(** ** The response to a classified image *)

Section Respond.

Context {Image : Type} (image_open : list byte -> option Image).

(** What [respond] returns does not depend on the log. *)
Lemma respond_log (results : list RawResult) (lg : list LogRecord) :
  fst (respond results lg) = fst (respond results []).
Proof.
  unfold respond, mbind, M_bind.
  rewrite (max_by_score_log results lg).
  destruct (fst (max_by_score results [])) as [e | top] eqn:E.
  - rewrite (surjective_pairing (max_by_score results [])), E. reflexivity.
  - rewrite (surjective_pairing (max_by_score results [])), E.
    rewrite (max_by_score_log results []) at 1. simpl.
    destruct (label top); [| reflexivity].
    destruct (score top); reflexivity.
Qed.


(** The handler, gate by gate, on the upload as the request holds it. *)
Lemma predict_gates (cls : option (Classifier Image)) (req : Request) (lg : list LogRecord) :
  predict image_open cls req lg =
    match cls with
    | None => (inr (JsonError "Model not loaded. Please check server logs.", 503), lg)
    | Some model =>
    match files req !! "image" with
    | None => (inr (JsonError "No image file provided.", 400), lg)
    | Some f =>
    if String.eqb (filename f) "" then (inr (JsonError "Empty filename.", 400), lg)
    else if negb (fst (fst (validate_image f)))
    then (inr (JsonError (snd (fst (validate_image f))), 422), lg)
    else
    match image_open (stream f) with
    | None => (inr (JsonError "Could not read image. File may be corrupted.", 422), lg)
    | Some image =>
    match model image with
    | None => (inr (JsonError "Model inference failed.", 500), (lg ++ [ErrorInference])%list)
    | Some results => respond results (lg ++ [InfoRawOutput results])%list
    end end end end.
Proof.
  unfold predict. destruct cls as [model|]; [| reflexivity].
  destruct (files req !! "image") as [f|]; [| reflexivity].
  destruct (String.eqb (filename f) ""); [reflexivity|].
  pose proof (validate_image_cases f) as Hc.
  pose proof (validate_image_file f) as Hf.
  destruct (validate_image f) as [[valid msg] f']. simpl in Hc, Hf. simpl.
  destruct valid; [| reflexivity]. simpl.
  destruct (not_allowed (content_type f)); [discriminate Hc|].
  subst f'. unfold Stream.read. simpl. rewrite drop_0.
  destruct (image_open (stream f)) as [image|]; [| reflexivity].
  destruct (model image); reflexivity.
Qed.

End Respond.

(** ** The handler *)

Section Predict.

Context {Image : Type} (image_open : list byte -> option Image).

(** A request that passes every gate is answered from the classifier's
    output, which is logged first. *)
Lemma predict_classified (cls : option (Classifier Image)) (req : Request)
    (results : list RawResult) (lg : list LogRecord) :
  Classified image_open cls req results ->
  predict image_open cls req lg =
    respond results (lg ++ [InfoRawOutput results])%list.
Proof.
  intros (model & f & image & -> & Hf & Hfn & Hv & Himg & Hm).
  rewrite predict_gates, Hf.
  apply String.eqb_neq in Hfn. now rewrite Hfn, Hv, Himg, Hm.
Qed.


(** C1: the last row of the transition table fails on an empty output of
    the classifier.  When the model is loaded, the file is present and
    named, validation passes, the bytes decode and the inference call
    returns an empty sequence, the handler gives no response, neither 200
    nor any other status: it raises ValueError. *)
Theorem predict_empty_output_no_response
    (cls : option (Classifier Image)) (req : Request) (lg : list LogRecord) :
  Classified image_open cls req [] ->
  fst (predict image_open cls req lg) =
    inl (ValueError "max() arg is an empty sequence") /\
  forall body st, fst (predict image_open cls req lg) <> inr (body, st).
Proof.
  intros Hcl. rewrite (predict_classified cls req [] lg Hcl).
  split; [reflexivity | discriminate].
Qed.

(** C7: not every failure is turned into a JSON error.  For a request
    that passes every gate, when the classifier returns an empty output
    [predict] raises ValueError, and when the first entry of the output
    has no score it raises KeyError: lines 111-113 run outside the try
    blocks that guard decoding and inference. *)
Theorem predict_raises_on_malformed_output
    (cls : option (Classifier Image)) (req : Request) (lg : list LogRecord)
    (results : list RawResult) :
  Classified image_open cls req results ->
  (results = [] ->
     fst (predict image_open cls req lg) =
       inl (ValueError "max() arg is an empty sequence")) /\
  ((exists r rest, results = r :: rest /\ score r = None) ->
     fst (predict image_open cls req lg) = inl (KeyError "score")).
Proof.
  intros Hcl. rewrite (predict_classified cls req results lg Hcl).
  split.
  - intros ->. reflexivity.
  - intros (r & rest & -> & Hr). unfold respond, max_by_score, mbind, M_bind.
    rewrite Hr. reflexivity.
Qed.

(** C9: two requests whose uploads have the same bytes, declared
    content type and file name get the same response from the same
    model, whatever else the requests hold and whatever was logged
    before; in particular when the second is handled after the first. *)
Theorem predict_same_upload
    (cls : option (Classifier Image)) (req1 req2 : Request)
    (f1 f2 : FileStorage) (lg1 lg2 : list LogRecord) :
  files req1 !! "image" = Some f1 ->
  files req2 !! "image" = Some f2 ->
  stream f1 = stream f2 ->
  content_type f1 = content_type f2 ->
  filename f1 = filename f2 ->
  fst (predict image_open cls req1 lg1) = fst (predict image_open cls req2 lg2) /\
  fst (predict image_open cls req2 (snd (predict image_open cls req1 lg1))) =
    fst (predict image_open cls req1 lg1).
Proof.
  intros H1 H2 Hs Hct Hfn.
  assert (Hv : fst (validate_image f1) = fst (validate_image f2)).
  { rewrite !validate_image_cases. unfold size_in_bytes. now rewrite Hs, Hct. }
  assert (Hany : forall lg lg',
            fst (predict image_open cls req1 lg) = fst (predict image_open cls req2 lg')).
  { intros lg lg'. rewrite !predict_gates, H1, H2, Hfn, Hv, Hs.
    destruct cls as [model|]; [| reflexivity].
    destruct (String.eqb (filename f2) ""); [reflexivity|].
    destruct (negb _); [reflexivity|].
    destruct (image_open (stream f2)) as [image|]; [| reflexivity].
    destruct (model image) as [results|]; [| reflexivity].
    now rewrite respond_log, (respond_log results (lg' ++ _)%list). }
  split; [apply Hany | symmetry; apply Hany].
Qed.

(** C10: when the model was never loaded every request gets 503,
    whatever it holds; and an upload that has both a refused content
    type and more than 5 MiB is reported as InvalidType. *)
Theorem gate_order :
  (forall (req : Request) (lg : list LogRecord),
     predict image_open None req lg =
       (inr (JsonError "Model not loaded. Please check server logs.", 503), lg)) /\
  (forall f : FileStorage,
     ~ DeclaredAllowed (content_type f) ->
     MAX_FILE_SIZE < size_in_bytes f ->
     fst (validate_image f) = (false, invalid_type_msg (content_type f)) /\
     verdict (fst (validate_image f)) = InvalidType).
Proof.
  split; [reflexivity |].
  intros f Hty _. rewrite validate_image_cases.
  apply not_allowed_true in Hty. rewrite Hty.
  split; [reflexivity | apply verdict_invalid_type].
Qed.

End Predict.


Lemma predict_empty_output_no_response_witness :
  Classified Sample.image_open (Some Sample.no_labels) Sample.request [] /\
  fst (predict Sample.image_open (Some Sample.no_labels) Sample.request []) =
    inl (ValueError "max() arg is an empty sequence") /\
  forall body st,
    fst (predict Sample.image_open (Some Sample.no_labels) Sample.request []) <>
      inr (body, st).
Proof.
  assert (H : Classified Sample.image_open (Some Sample.no_labels) Sample.request []).
  { exists Sample.no_labels, Sample.small_png, Sample.png_bytes.
    repeat split; try reflexivity. discriminate. }
  split; [exact H |].
  apply (predict_empty_output_no_response Sample.image_open _ _ [] H).
Defined.

Lemma predict_raises_on_malformed_output_witness :
  Classified Sample.image_open (Some Sample.no_labels) Sample.request [] /\
  fst (predict Sample.image_open (Some Sample.no_labels) Sample.request []) =
    inl (ValueError "max() arg is an empty sequence") /\
  fst (predict Sample.image_open (Some Sample.no_score) Sample.request []) =
    inl (KeyError "score").
Proof.
  assert (H : Classified Sample.image_open (Some Sample.no_labels) Sample.request []).
  { exists Sample.no_labels, Sample.small_png, Sample.png_bytes.
    repeat split; try reflexivity. discriminate. }
  assert (H' : Classified Sample.image_open (Some Sample.no_score) Sample.request
                 [mkRaw (Some "artificial") None]).
  { exists Sample.no_score, Sample.small_png, Sample.png_bytes.
    repeat split; try reflexivity. discriminate. }
  split; [exact H | split].
  - apply (predict_raises_on_malformed_output Sample.image_open _ _ [] _ H).
    reflexivity.
  - apply (predict_raises_on_malformed_output Sample.image_open _ _ [] _ H').
    eexists _, _. split; reflexivity.
Defined.

Lemma predict_same_upload_witness :
  fst (predict Sample.image_open (Some Sample.two_labels) Sample.request []) =
    fst (predict Sample.image_open (Some Sample.two_labels) Sample.request' []) /\
  fst (predict Sample.image_open (Some Sample.two_labels) Sample.request'
         (snd (predict Sample.image_open (Some Sample.two_labels) Sample.request []))) =
    fst (predict Sample.image_open (Some Sample.two_labels) Sample.request []).
Proof.
  apply (predict_same_upload Sample.image_open (Some Sample.two_labels)
           Sample.request Sample.request' Sample.small_png Sample.small_png);
    reflexivity.
Defined.

Lemma gate_order_witness :
  ~ DeclaredAllowed (content_type Sample.big_gif) /\
  MAX_FILE_SIZE < size_in_bytes Sample.big_gif /\
  verdict (fst (validate_image Sample.big_gif)) = InvalidType.
Proof.
  assert (Hty : ~ DeclaredAllowed (content_type Sample.big_gif)).
  { intros [H | [H | H]]; discriminate H. }
  assert (Hsz : MAX_FILE_SIZE < size_in_bytes Sample.big_gif).
  { unfold size_in_bytes. cbn [stream Sample.big_gif]. rewrite size_zeros. reflexivity. }
  split; [exact Hty | split; [exact Hsz |]].
  apply (proj2 (gate_order Sample.image_open) Sample.big_gif Hty Hsz).
Defined.

(** * Further properties *)

(** ** Validation and the stream *)

(** X1: the returned pair depends only on the declared content type and
    on the number of bytes of the upload, not on its file name, its bytes
    or the read position of its stream. *)
Theorem validate_image_type_and_size (f g : FileStorage) :
  content_type f = content_type g ->
  length (stream f) = length (stream g) ->
  fst (validate_image f) = fst (validate_image g).
Proof.
  intros Hct Hlen. rewrite !validate_image_cases.
  unfold size_in_bytes. now rewrite Hct, Hlen.
Qed.

Lemma validate_image_type_and_size_witness :
  fst (validate_image Probe.consumed_png) = fst (validate_image Sample.small_png).
Proof.
  apply (validate_image_type_and_size Probe.consumed_png Sample.small_png);
    reflexivity.
Defined.

(** X2: after validation of an upload of an allowed type, accepted or too
    large, the stream is at its start wherever it was before, so a stream
    that was read to its end is read again in full; an upload of a refused
    type is left where it was. *)
Theorem validate_image_rewinds_or_leaves (f : FileStorage) :
  (DeclaredAllowed (content_type f) ->
     snd (validate_image f) = Stream.set_position f 0 /\
     fst (Stream.read (snd (validate_image f))) = stream f) /\
  (~ DeclaredAllowed (content_type f) ->
     snd (validate_image f) = f).
Proof.
  rewrite validate_image_file. split; intros Hty.
  - apply not_allowed_false in Hty. rewrite Hty. split; reflexivity.
  - apply not_allowed_true in Hty. now rewrite Hty.
Qed.

Lemma validate_image_rewinds_or_leaves_witness :
  fst (Stream.read Probe.consumed_png) = [] /\
  fst (Stream.read (snd (validate_image Probe.consumed_png))) = Sample.png_bytes /\
  snd (validate_image Probe.consumed_gif) = Probe.consumed_gif.
Proof.
  split; [reflexivity | split].
  - apply (proj1 (validate_image_rewinds_or_leaves Probe.consumed_png)).
    right. left. reflexivity.
  - apply (proj2 (validate_image_rewinds_or_leaves Probe.consumed_gif)).
    intros [H | [H | H]]; discriminate H.
Defined.

(** X3: validating the file object that a validation left behind gives the
    same pair and the same file object again. *)
Theorem validate_image_twice (f : FileStorage) :
  validate_image (snd (validate_image f)) = validate_image f.
Proof.
  apply injective_projections.
  - rewrite (validate_image_cases (snd _)), validate_image_cases, validate_image_file.
    destruct (not_allowed (content_type f)) eqn:E; [now rewrite E |].
    unfold size_in_bytes. cbn [content_type stream Stream.set_position].
    now rewrite E.
  - rewrite (validate_image_file (snd _)), !validate_image_file.
    destruct (not_allowed (content_type f)) eqn:E; [now rewrite E |].
    cbn [content_type Stream.set_position]. now rewrite E.
Qed.

(** ** The size in the rejection message *)

(** The megabytes of a size in bytes, times one hundred. *)
Lemma megabytes_scaled (size : Z) :
  (inject_Z size / inject_Z 1024 / inject_Z 1024 * inject_Z 100 ==
   inject_Z size * (100 # 1048576))%Q.
Proof. unfold inject_Z. field. Qed.

(** X4: an upload of an allowed type that exceeds the limit by at most
    5,242 bytes is refused with a message that gives its size as 5.00 MB;
    and no refusal for size gives a figure below 5.00. *)
Theorem too_large_message_figure (f : FileStorage) :
  DeclaredAllowed (content_type f) ->
  MAX_FILE_SIZE < size_in_bytes f ->
  (size_in_bytes f <= MAX_FILE_SIZE + 5242 ->
     fst (validate_image f) = (false, "File too large (5.00 MB). Max is 5 MB.")) /\
  (exists k,
     500 <= k /\
     fst (validate_image f) =
       (false, "File too large (" ++ PyNum.fixed 2 k ++ " MB). Max is 5 MB.")).
Proof.
  intros Hty Hsz.
  apply not_allowed_false in Hty.
  assert (Hlt : (MAX_FILE_SIZE <? size_in_bytes f) = true) by now apply Z.ltb_lt.
  rewrite validate_image_cases, Hty, Hlt.
  unfold too_large_msg, PyNum.format_2f.
  rewrite (PyNumFacts.round_half_even_comp _ _ (megabytes_scaled (size_in_bytes f))).
  set (q := (inject_Z (size_in_bytes f) * (100 # 1048576))%Q).
  assert (Hq : (inject_Z 500 < q)%Q).
  { unfold q. unfold MAX_FILE_SIZE in Hsz.
    assert (H : (inject_Z (5 * 1024 * 1024) < inject_Z (size_in_bytes f))%Q)
      by now rewrite <- Zlt_Qlt.
    change (inject_Z (5 * 1024 * 1024)) with (5242880 # 1)%Q in H.
    change (inject_Z 500) with (500 # 1)%Q. lra. }
  split.
  - intros Hup.
    assert (Hq' : (q < inject_Z 500 + (1 # 2))%Q).
    { unfold q. unfold MAX_FILE_SIZE in Hup.
      assert (H : (inject_Z (size_in_bytes f) <= inject_Z (5 * 1024 * 1024 + 5242))%Q)
        by now rewrite <- Zle_Qle.
      change (inject_Z (5 * 1024 * 1024 + 5242)) with (5248122 # 1)%Q in H.
      change (inject_Z 500) with (500 # 1)%Q. lra. }
    assert (Hk : PyNum.round_half_even q = 500).
    { enough (500 <= PyNum.round_half_even q <= 500) by lia.
      apply round_half_even_strict; [| exact Hq'].
      change (inject_Z 500) with (500 # 1)%Q in *. lra. }
    rewrite Hk. reflexivity.
  - exists (PyNum.round_half_even q). split; [| reflexivity].
    pose proof (PyNumFacts.round_half_even_close q) as Hc.
    apply Qabs_Qle_condition in Hc.
    assert (H : (inject_Z 499 < inject_Z (PyNum.round_half_even q))%Q).
    { change (inject_Z 500) with (500 # 1)%Q in Hq.
      change (inject_Z 499) with (499 # 1)%Q. lra. }
    rewrite <- Zlt_Qlt in H. lia.
Qed.

Lemma too_large_message_figure_witness :
  MAX_FILE_SIZE < size_in_bytes Probe.over_jpeg /\
  fst (validate_image Probe.over_jpeg) =
    (false, "File too large (5.00 MB). Max is 5 MB.").
Proof.
  assert (Hsize : size_in_bytes Probe.over_jpeg = 5243880).
  { unfold size_in_bytes. cbn [stream Probe.over_jpeg]. now rewrite size_zeros. }
  assert (Hsz : MAX_FILE_SIZE < size_in_bytes Probe.over_jpeg)
    by (rewrite Hsize; reflexivity).
  split; [exact Hsz |].
  apply (too_large_message_figure Probe.over_jpeg).
  - left. reflexivity.
  - exact Hsz.
  - rewrite Hsize. discriminate.
Defined.

(** ** Keywords in context and in any case *)

(** X5: a label that holds one of the five keywords written in any mix of
    upper and lower case, anywhere in it, is normalized to AI Generated. *)
Theorem normalize_keyword_any_case (kw w pre post : string) :
  In kw KEYWORDS ->
  PyStr.lower w = kw ->
  normalize (pre ++ w ++ post) = "AI Generated".
Proof.
  intros Hin Hw. apply normalize_AI. exists kw. split; [exact Hin |].
  rewrite !lower_app, Hw. now exists (PyStr.lower pre), (PyStr.lower post).
Qed.

Lemma normalize_keyword_any_case_witness :
  normalize ("Deep" ++ "FaKe" ++ "-v2") = "AI Generated".
Proof.
  apply (normalize_keyword_any_case "fake" "FaKe" "Deep" "-v2").
  - right. left. reflexivity.
  - reflexivity.
Defined.

(** X6: text added before or after a label never turns AI Generated into
    Real. *)
Theorem normalize_extension (raw pre post : string) :
  normalize raw = "AI Generated" ->
  normalize (pre ++ raw ++ post) = "AI Generated".
Proof.
  intros H. apply normalize_AI in H as (kw & Hin & Hc).
  apply normalize_AI. exists kw. split; [exact Hin |].
  rewrite !lower_app. now apply Contains_app.
Qed.

Lemma normalize_extension_witness :
  normalize ("not " ++ "ai" ++ " at all") = "AI Generated".
Proof.
  apply (normalize_extension "ai" "not " " at all"). reflexivity.
Defined.

(** ** Ties between scores *)









(** ** The explanation for any label, and at full confidence *)



(** ** The bands in terms of the raw score *)

(** Rounding reaches an even integer [n] from [n - 1/2] on. *)
Lemma round_half_even_reaches (q : Q) (n : Z) :
  Z.even n = true ->
  n <= PyNum.round_half_even q <-> (inject_Z n - (1 # 2) <= q)%Q.
Proof.
  intros Hn.
  pose proof (PyNumFacts.round_half_even_close q) as Hc.
  apply Qabs_Qle_condition in Hc.
  split.
  - intros H. rewrite Zle_Qle in H. lra.
  - intros H. destruct (Qlt_le_dec (inject_Z n - (1 # 2)) q) as [Hlt | Hle].
    + assert (H' : (inject_Z (n + -1) < inject_Z (PyNum.round_half_even q))%Q).
      { rewrite inject_Z_plus. change (inject_Z (-1)) with (-1 # 1)%Q. lra. }
      rewrite <- Zlt_Qlt in H'. lia.
    + assert (Heq : (q == inject_Z (n + -1) + (1 # 2))%Q).
      { rewrite inject_Z_plus. change (inject_Z (-1)) with (-1 # 1)%Q. lra. }
      rewrite (PyNumFacts.round_half_even_comp _ _ Heq).
      unfold PyNum.round_half_even.
      assert (Hfl : Qfloor (inject_Z (n + -1) + (1 # 2)) = n + -1).
      { unfold Qfloor, inject_Z, Qplus. simpl.
        change (Z.pos (1 * 2)) with 2.
        symmetry. apply Z.div_unique with (r := 1); lia. }
      rewrite Hfl.
      assert (Hcmp : (inject_Z (n + -1) + (1 # 2) - inject_Z (n + -1) ?= 1 # 2)%Q = Eq).
      { apply (proj1 (Qeq_alt _ _)). lra. }
      rewrite Hcmp.
      replace (Z.even (n + -1)) with false; [lia |].
      replace (n + -1) with (Z.pred n) by lia.
      rewrite Z.even_pred. symmetry. apply negb_true_iff.
      now rewrite <- Z.negb_even, Hn.
Qed.

(** The score rounded to four decimals is a count of ten-thousandths. *)
Lemma round_score_count (s : Q) :
  PyNum.round s 4 =
    PyNum.round_half_even (PyNum.nearest s * inject_Z 10000) # 10000.
Proof. reflexivity. Qed.

(** The bands of the score rounded to four decimals, on the float of the
    score. *)
Lemma band_of_rounded_score (s : Q) (b : Band) :
  FloatBand (PyNum.round s 4) b <->
  match b with
  | High => (0.89995 <= PyNum.nearest s)%Q
  | Medium => (0.69995 <= PyNum.nearest s)%Q /\ (PyNum.nearest s < 0.89995)%Q
  | Low => (PyNum.nearest s < 0.69995)%Q
  end.
Proof.
  rewrite round_score_count.
  set (x := PyNum.nearest s).
  set (k := PyNum.round_half_even (x * inject_Z 10000)).
  assert (H9 : 9000 <= k <-> (0.89995 <= x)%Q).
  { unfold k. rewrite (round_half_even_reaches _ 9000) by reflexivity.
    unfold inject_Z. split; intros; lra. }
  assert (H7 : 7000 <= k <-> (0.69995 <= x)%Q).
  { unfold k. rewrite (round_half_even_reaches _ 7000) by reflexivity.
    unfold inject_Z. split; intros; lra. }
  rewrite FloatBand_decimal. destruct b.
  - exact H9.
  - rewrite <- H7. split.
    + intros [Ha Hb]. split; [exact Ha |].
      apply Qnot_le_lt. intros Hc. apply H9 in Hc. lia.
    + intros [Ha Hb]. split; [exact Ha |].
      destruct (Z.lt_ge_cases k 9000) as [Hl | Hg]; [exact Hl |].
      apply H9 in Hg. lra.
  - split.
    + intros Ha. apply Qnot_le_lt. intros Hc. apply H7 in Hc. lia.
    + intros Ha. destruct (Z.lt_ge_cases k 7000) as [Hl | Hg]; [exact Hl |].
      apply H7 in Hg. lra.
Qed.

(** X9: the handler picks the template by the score rounded to four
    decimals, so on the float of the score itself the high-confidence
    template is used from 0.89995 on and the middle one from 0.69995 on;
    the float next to 0.69995 lies below it and gets the low-confidence
    template. *)
Theorem explanation_band_of_score (lbl : string) (s : Q) :
  (exists (b : Band) (pct : string),
     build_explanation lbl (PyNum.round s 4) =
       fill (template (String.eqb lbl "AI Generated") b) pct /\
     (b = High <-> (0.89995 <= PyNum.nearest s)%Q) /\
     (b = Medium <->
      (0.69995 <= PyNum.nearest s)%Q /\ (PyNum.nearest s < 0.89995)%Q) /\
     (b = Low <-> (PyNum.nearest s < 0.69995)%Q)) /\
  build_explanation "Real" (PyNum.round 0.69995 4) =
    "The model leans toward real (70.0%), but is not highly certain. This image sits near the boundary between AI-generated and real photography." /\
  build_explanation "Real" (PyNum.round 0.70005 4) =
    "The model believes (70.0%) this is a real image. It exhibits mostly authentic photographic characteristics, with only minor ambiguities.".
Proof.
  split; [| split; vm_compute; reflexivity].
  destruct (FloatBand_total (PyNum.round s 4)) as [b Hb].
  exists b, (PyNum.str_tenths (PyNum.round (PyNum.mul (PyNum.round s 4) 100) 1)).
  split; [now apply build_explanation_band |].
  assert (Hiff : forall b', b = b' <-> FloatBand (PyNum.round s 4) b').
  { intros b'. split; [now intros <- |].
    intros Hb'. symmetry. exact (FloatBand_unique _ b b' Hb Hb'). }
  rewrite !Hiff.
  split; [exact (band_of_rounded_score s High) |
          split; [exact (band_of_rounded_score s Medium) |
                  exact (band_of_rounded_score s Low)]].
Qed.

(** ** Every path of the handler *)




Section Paths.

Context {Image : Type} (image_open : list byte -> option Image).





End Paths.

(** ** The response against itself *)








Section Consistency.

Context {Image : Type} (image_open : list byte -> option Image).


(** X14: an upload that is missing, unnamed or refused by validation never
    reaches the decoder or the model, and one that does not decode never
    reaches the model: the outcome is the same with any other decoder and
    model. *)
Theorem rejected_before_decoding
    {Image' : Type} (image_open' : list byte -> option Image')
    (model model2 : Classifier Image) (model' : Classifier Image')
    (req : Request) (lg : list LogRecord) :
  ((forall f, files req !! "image" = Some f ->
      filename f = "" \/ fst (fst (validate_image f)) = false) ->
   predict image_open (Some model) req lg =
     predict image_open' (Some model') req lg) /\
  ((forall f, files req !! "image" = Some f -> image_open (stream f) = None) ->
   predict image_open (Some model) req lg =
     predict image_open (Some model2) req lg).
Proof.
  rewrite !predict_gates. split; intros H.
  - destruct (files req !! "image") as [f|]; [| reflexivity].
    destruct (H f eq_refl) as [-> | Hv]; [reflexivity |].
    destruct (String.eqb (filename f) ""); [reflexivity |].
    now rewrite Hv.
  - destruct (files req !! "image") as [f|]; [| reflexivity].
    now rewrite (H f eq_refl).
Qed.

(** X15: after the module is loaded, /health answers 200 and reports the
    model as not loaded exactly when the pipeline could not be built,
    which is exactly when every /predict request is answered 503. *)
Theorem health_tells_degraded
    (pipeline : string -> string -> Z -> option (Classifier Image))
    (environ : gmap string string) (cuda_is_available : bool)
    (folder : string) (path_exists : string -> bool) :
  let classifier := fst (load_classifier pipeline environ cuda_is_available) in
  let h := health classifier cuda_is_available folder path_exists in
  snd h = 200 /\
  (model_loaded (fst h) = false <->
     pipeline "image-classification" (MODEL_NAME environ)
       (if cuda_is_available then 0 else -1) = None) /\
  (model_loaded (fst h) = false <->
     forall req lg, exists body,
       fst (predict image_open classifier req lg) = inr (body, 503)).
Proof.
  cbv zeta. unfold load_classifier.
  assert (Hdev : (if String.eqb (DEVICE cuda_is_available) "cuda" then 0 else -1) =
                 (if cuda_is_available then 0 else -1))
    by now destruct cuda_is_available.
  rewrite Hdev.
  destruct (pipeline _ _ _) as [model|]; cbn [fst snd health model_loaded].
  - split; [reflexivity | split; split; try discriminate].
    intros H. destruct (H (mkRequest ∅ ∅) []) as [body Hb].
    rewrite predict_gates in Hb. cbn [files] in Hb. rewrite lookup_empty in Hb.
    discriminate Hb.
  - split; [reflexivity | split; split; try reflexivity].
    intros _ req lg. now eexists.
Qed.

End Consistency.

(** ** Reading the percentage back *)



(** ** The further properties on concrete requests *)




Lemma rejected_before_decoding_witness :
  predict Sample.image_open (Some Sample.two_labels) Probe.gif_request [] =
    predict Probe.never_open (Some (fun _ => None)) Probe.gif_request [].
Proof.
  apply (proj1 (rejected_before_decoding Sample.image_open Probe.never_open
                  Sample.two_labels Sample.two_labels (fun _ => None)
                  Probe.gif_request [])).
  intros f Hf. vm_compute in Hf. injection Hf as <-. right. reflexivity.
Defined.

